(** * GBM_Simulator (src/gbm.py): a shallow embedding and its properties

    The Python class [GBM_Simulator] is modelled method by method:
    - Python exceptions and a small error/result type;
    - Python values for the attributes [T] and [n], which the constructor
      stores as one-element tuples ([self.T = T,]);
    - calendar dates as pandas reads them, and [pd.date_range(..., freq='B')];
    - the frame built by [_create_empty_frame], as an ordered list of named
      columns, and the [data['close'] = path] assignment;
    - the path arithmetic of [_create_geometric_brownian_motion] over the reals;
    - [__call__] as a computation over the file system (the CSV files written). *)

From Stdlib Require Import ZArith List String Ascii Bool Reals Lra Lia Sorting.Sorted.
Import ListNotations.

Set Warnings "-register-all".
Open Scope string_scope.
Open Scope Z_scope.

(** ** Exceptions and results *)

Inductive exc :=
| TypeError
| ValueError          (** also its pandas subclasses DateParseError, OutOfBoundsDatetime *)
| ZeroDivisionError
| KeyError
| AttributeError
| OSError.            (** also FileNotFoundError, PermissionError *)

Definition exc_name (e : exc) : string :=
  match e with
  | TypeError => "TypeError"
  | ValueError => "ValueError"
  | ZeroDivisionError => "ZeroDivisionError"
  | KeyError => "KeyError"
  | AttributeError => "AttributeError"
  | OSError => "OSError"
  end.

Inductive result (A : Type) :=
| Ok (a : A)
| Error (e : exc).
Arguments Ok {A} a.
Arguments Error {A} e.

Definition bind {A B} (r : result A) (k : A -> result B) : result B :=
  match r with
  | Ok a => k a
  | Error e => Error e
  end.

Notation "x <- r ;; k" := (bind r (fun x => k))
  (at level 61, r at next level, right associativity).

(** A result raises the Python exception called [name]. *)
Definition raises_named {A} (r : result A) (name : string) : Prop :=
  exists e, r = Error e /\ exc_name e = name.

(** ** Python values (for the attributes [T] and [n]) *)

Inductive value :=
| VNum (x : R)               (** an int or a float *)
| VTuple (l : list value)
| VStr (s : string).

(** The true division [a / b]: numbers divide (division by zero raises),
    a tuple or a string has no [__truediv__] nor [__rtruediv__]. *)
Definition py_div (a b : value) : result value :=
  match a, b with
  | VNum x, VNum y =>
      if Req_EM_T y 0 then Error ZeroDivisionError else Ok (VNum (x / y))
  | _, _ => Error TypeError
  end.

(** ** Calendar dates and pandas timestamps *)

(** A calendar date, as in the strings ["YYYY-MM-DD"] the class receives. *)
Record civil := mkCivil { year : Z; month : Z; day : Z }.

Definition is_leap (y : Z) : bool :=
  ((y mod 4 =? 0) && negb (y mod 100 =? 0)) || (y mod 400 =? 0).

Definition days_in_month (y m : Z) : Z :=
  if (m =? 2) then (if is_leap y then 29 else 28)
  else if (m =? 4) || (m =? 6) || (m =? 9) || (m =? 11) then 30
  else 31.

Definition valid_civil (c : civil) : bool :=
  (1 <=? month c) && (month c <=? 12) &&
  (1 <=? day c) && (day c <=? days_in_month (year c) (month c)).

(** Days since 1970-01-01 (the proleptic Gregorian calendar). *)
Definition days_from_civil (c : civil) : Z :=
  let y := if month c <=? 2 then year c - 1 else year c in
  let era := y / 400 in
  let yoe := y - era * 400 in
  let mp := if month c >? 2 then month c - 3 else month c + 9 in
  let doy := (153 * mp + 2) / 5 + day c - 1 in
  let doe := yoe * 365 + yoe / 4 - yoe / 100 + doy in
  era * 146097 + doe - 719468.

(** Day of the week, Monday = 0, ..., Sunday = 6 (1970-01-01 was a Thursday). *)
Definition weekday (d : Z) : Z := (d + 3) mod 7.

Definition is_business_day (d : Z) : bool := weekday d <? 5.

(** pandas represents a midnight timestamp from 1677-09-22 to 2262-04-11. *)
Definition ts_min : Z := days_from_civil (mkCivil 1677 9 22).
Definition ts_max : Z := days_from_civil (mkCivil 2262 4 11).

(** Reading a date bound of [pd.date_range]: an impossible calendar date
    raises a parse error, one pandas cannot represent raises
    [OutOfBoundsDatetime] (both are [ValueError]s). *)
Definition to_timestamp (c : civil) : result Z :=
  if valid_civil c then
    let d := days_from_civil c in
    if (ts_min <=? d) && (d <=? ts_max) then Ok d else Error ValueError
  else Error ValueError.

(** The [BDay] offset: [rollforward] moves a weekend day to the next Monday,
    [+ BDay(1)] goes to the next business day. *)
Definition bday_rollforward (d : Z) : Z :=
  if weekday d =? 5 then d + 2
  else if weekday d =? 6 then d + 1
  else d.

Definition bday_next (d : Z) : Z :=
  if weekday d =? 4 then d + 3
  else if weekday d =? 5 then d + 2
  else d + 1.

(** The generation loop of [pd.date_range]: from the rolled-forward start,
    step by one business day while the date does not pass [stop]. The fuel
    is the number of calendar days in the range, larger than the number of
    steps. *)
Fixpoint bday_gen (fuel : nat) (cur stop : Z) : list Z :=
  match fuel with
  | O => []
  | S f => if cur <=? stop then cur :: bday_gen f (bday_next cur) stop else []
  end.

(** [pd.date_range(start_date, end_date, freq='B')]. *)
Definition date_range (start_date end_date : civil) : result (list Z) :=
  s <- to_timestamp start_date ;;
  e <- to_timestamp end_date ;;
  Ok (bday_gen (Z.to_nat (e - s + 1)) (bday_rollforward s) e).

(** ** Data frames *)

(** A cell of a frame: a timestamp (in days) or a float. *)
Inductive cell :=
| CDate (d : Z)
| CNum (x : R)
| CNA.                (** the missing value of the column's dtype: NaT, NaN *)

(** A [pd.DataFrame]: the length of its index and its columns, by name, in
    order. *)
Record frame := mkFrame { nrows : nat; cols : list (string * list cell) }.

Definition col_names (f : frame) : list string := map fst (cols f).

Fixpoint lookup_col (k : string) (cs : list (string * list cell))
  : option (list cell) :=
  match cs with
  | [] => None
  | (k', v) :: cs' => if String.eqb k k' then Some v else lookup_col k cs'
  end.

(** [data[key]]. *)
Definition frame_get (f : frame) (k : string) : option (list cell) :=
  lookup_col k (cols f).

(** [data[[k1, k2, ...]]]: a new frame with these columns in this order; a
    missing name raises [KeyError]. *)
Fixpoint select_cols (cs : list (string * list cell)) (ks : list string)
  : result (list (string * list cell)) :=
  match ks with
  | [] => Ok []
  | k :: ks' =>
      match lookup_col k cs with
      | None => Error KeyError
      | Some v => rest <- select_cols cs ks' ;; Ok ((k, v) :: rest)
      end
  end.

Definition frame_select (f : frame) (ks : list string) : result frame :=
  cs <- select_cols (cols f) ks ;; Ok (mkFrame (nrows f) cs).

(** Replacing the column(s) named [key] by [v]. *)
Definition replace_col (key : string) (v : list cell) (kc : string * list cell) :=
  if String.eqb key (fst kc) then (key, v) else kc.

(** The number of columns named [k]. *)
Definition count_col (k : string) (cs : list (string * list cell)) : nat :=
  List.length (filter (fun kc : string * list cell => String.eqb k (fst kc)) cs).

(** [_iset_not_inplace] for a key naming several columns: the i-th column
    named [k] gets the i-th entry of the value, broadcast to every row. *)
Fixpoint set_dups (k : string) (v : list cell) (rows : nat)
    (cs : list (string * list cell)) : list (string * list cell) :=
  match cs with
  | [] => []
  | kc :: cs' =>
      if String.eqb k (fst kc)
      then (fst kc, List.repeat (hd CNA v) rows) :: set_dups k (tl v) rows cs'
      else kc :: set_dups k v rows cs'
  end.

(** Every column re-indexed to [rows] new rows, all missing values. *)
Definition reindex_cols (cs : list (string * list cell)) (rows : nat)
  : list (string * list cell) :=
  map (fun kc : string * list cell => (fst kc, List.repeat CNA rows)) cs.

(** [_ensure_valid_index]: a frame whose index is empty, given a non-empty
    array, first takes the array's index ([RangeIndex(len(value))]); the
    existing columns are re-indexed to it and hold missing values. *)
Definition ensure_valid_index (f : frame) (v : list cell) : frame :=
  if Nat.eqb (nrows f) 0 && negb (Nat.eqb (List.length v) 0)
  then mkFrame (List.length v) (reindex_cols (cols f) (List.length v))
  else f.

(** [_set_item_mgr]: the column(s) named [k] are replaced (the array is
    tiled across duplicates), or a new column is inserted at the end. *)
Definition set_item_mgr (f : frame) (k : string) (v : list cell) : frame :=
  if existsb (fun kc : string * list cell => String.eqb k (fst kc)) (cols f)
  then mkFrame (nrows f) (map (replace_col k v) (cols f))
  else mkFrame (nrows f) (cols f ++ [(k, v)]).

(** [_set_item]: [_sanitize_column] calls [_ensure_valid_index], then the
    array must be as long as the index ([ValueError] otherwise). *)
Definition set_item (f : frame) (k : string) (v : list cell) : result frame :=
  let f := ensure_valid_index f v in
  if Nat.eqb (List.length v) (nrows f) then Ok (set_item_mgr f k v)
  else Error ValueError.

(** [data[key] = values] with a one-dimensional array
    ([DataFrame.__setitem__]): a key naming [m > 1] columns with an array of
    [m] entries goes through [_setitem_array]; anything else through
    [_set_item]. *)
Definition frame_setitem (f : frame) (k : string) (v : list cell) : result frame :=
  let occ := count_col k (cols f) in
  if Nat.ltb 1 occ && Nat.eqb (List.length v) occ
  then Ok (mkFrame (nrows f) (set_dups k v (nrows f) (cols f)))
  else set_item f k v.

(** ** The simulator object *)

Record GBM_Simulator := mkGBM {
  start_date : civil;
  end_date : civil;
  output_dir : string;
  T : value;
  n : value;
  symbol : string;
  init_price : R;
  mu : R;
  sigma : R;
  num_sims : Z
}.

(** [__init__]: every argument is stored as given, except that the trailing
    commas of [self.T = T,] and [self.n = n,] store one-element tuples. *)
Definition init (start_date end_date : civil) (output_dir : string)
    (T n : value) (symbol : string) (init_price mu sigma : R) (num_sims : Z)
  : GBM_Simulator :=
  mkGBM start_date end_date output_dir (VTuple [T]) (VTuple [n]) symbol
        init_price mu sigma num_sims.

(** [_create_empty_frame]. The Series [zeros] is shared by the open and
    close columns; the DataFrame constructor copies it, so no later update
    goes through it. *)
Definition create_empty_frame (self : GBM_Simulator) : result frame :=
  date_range_ <- date_range (start_date self) (end_date self) ;;
  let zeros := List.repeat (CNum 0%R) (List.length date_range_) in
  frame_select
    (mkFrame (List.length date_range_)
             [("date", map CDate date_range_); ("open", zeros); ("close", zeros)])
    ["date"; "open"; "close"].

(** ** The path arithmetic of [_create_geometric_brownian_motion] *)

(** numpy's [cumprod]: the running products of the array. *)
Fixpoint cumprod_acc (acc : R) (l : list R) : list R :=
  match l with
  | [] => []
  | x :: l' => (acc * x)%R :: cumprod_acc (acc * x)%R l'
  end.

Definition cumprod (l : list R) : list R :=
  match l with
  | [] => []
  | x :: l' => x :: cumprod_acc x l'
  end.

(** Lines 111-117 for a step [dt]: [np.random.normal(0, np.sqrt(dt), size=n)]
    is [sqrt dt] times the standard normal draws [zs];
    [np.exp(...)] acts elementwise and the result is
    [self.init_price * asset_path.cumprod()]. *)
Definition asset_path (mu sigma dt : R) (zs : list R) : list R :=
  map (fun z => exp ((mu - sigma ^ 2 / 2) * dt + sigma * (sqrt dt * z)))%R zs.

Definition gbm_prices (init_price mu sigma dt : R) (zs : list R) : list R :=
  map (fun p => init_price * p)%R (cumprod (asset_path mu sigma dt zs)).

(** [_create_geometric_brownian_motion] (the body, [data] unused), with [zs]
    the standard normal draws of numpy's global generator. *)
Definition gbm_body (self : GBM_Simulator) (zs : list R) : result (list R) :=
  let T := T self in
  let n := n self in
  dt <- py_div T n ;;
  match dt with
  | VNum dt => Ok (gbm_prices (init_price self) (mu self) (sigma self) dt zs)
  | _ => Error TypeError
  end.

(** [_append_path_to_data]: [data['close'] = path; return data]. *)
Definition append_path_to_data (data : frame) (path : list R) : result frame :=
  frame_setitem data "close" (map CNum path).

(** ** Bound methods, the file system and [__call__] *)

(** The positional arguments a method call passes after the bound [self]. *)
Inductive arg :=
| AObj (o : GBM_Simulator)
| AFrame (f : frame)
| APath (p : list R).

(** The file system: the directories a file can be created in (existing and
    writable), and the files written so far, by path (the string handed to
    [to_csv]), with the frame written there. *)
Record fs := mkFS { fs_dirs : list string; fs_files : list (string * frame) }.

(** The computations of [__call__]: exceptions over a file system. *)
Definition M (A : Type) := fs -> result A * fs.

Definition ret {A} (a : A) : M A := fun s => (Ok a, s).
Definition raise {A} (e : exc) : M A := fun s => (Error e, s).
Definition lift {A} (r : result A) : M A := fun s => (r, s).
Definition mbind {A B} (m : M A) (k : A -> M B) : M B :=
  fun s => match m s with
           | (Ok a, s') => k a s'
           | (Error e, s') => (Error e, s')
           end.

Notation "x <<- m ;; k" := (mbind m (fun x => k))
  (at level 61, m at next level, right associativity).

(** [os.path.join(a, b)] (posixpath). *)
Definition ends_with_slash (a : string) : bool :=
  match String.get (String.length a - 1) a with
  | Some c => Ascii.eqb c "/"%char
  | None => false
  end.

Definition os_path_join (a b : string) : string :=
  match b with
  | String c _ => if Ascii.eqb c "/"%char then b
                  else if String.eqb a "" || ends_with_slash a then a ++ b
                  else a ++ "/" ++ b
  | EmptyString => if String.eqb a "" || ends_with_slash a then a else a ++ "/"
  end.

(** [os.path.dirname(p)] (posixpath): the part before the last ['/'], without
    its trailing slashes unless it is made of slashes only. *)
Fixpoint drop_to_slash (rl : list ascii) : list ascii :=
  match rl with
  | [] => []
  | c :: r => if Ascii.eqb c "/"%char then rl else drop_to_slash r
  end.

Fixpoint drop_slashes (rl : list ascii) : list ascii :=
  match rl with
  | [] => []
  | c :: r => if Ascii.eqb c "/"%char then drop_slashes r else rl
  end.

Definition dirname (p : string) : string :=
  let head_rev := drop_to_slash (rev (list_ascii_of_string p)) in
  match drop_slashes head_rev with
  | [] => string_of_list_ascii (rev head_rev)
  | stripped => string_of_list_ascii (rev stripped)
  end.

(** [data.to_csv(output_file, index=False)]: the file is created or
    overwritten; a directory that does not exist or cannot be written raises
    [OSError]. *)
Definition write_file (p : string) (data : frame) : M unit :=
  fun s =>
    if existsb (String.eqb (dirname p)) (fs_dirs s)
    then (Ok tt, mkFS (fs_dirs s)
                      ((p, data) :: filter (fun pf => negb (String.eqb p (fst pf)))
                                           (fs_files s)))
    else (Error OSError, s).

(** Each method as called through [self.<name>(...)]: the list holds the
    positional arguments after the bound [self]; a count that differs from
    the signature raises [TypeError]. *)

(** [def _create_empty_frame(self)]. *)
Definition m_create_empty_frame (self : GBM_Simulator) (args : list arg) : M frame :=
  match args with
  | [] => lift (create_empty_frame self)
  | _ => raise TypeError
  end.

(** [def _create_geometric_brownian_motion(self, data)]. *)
Definition m_create_geometric_brownian_motion (self : GBM_Simulator) (zs : list R)
    (args : list arg) : M (list R) :=
  match args with
  | [_data] => lift (gbm_body self zs)
  | _ => raise TypeError
  end.

(** [def _append_path_to_data(self, data, path)]; item assignment on a
    non-frame raises [TypeError], and so does a path that is no array. *)
Definition m_append_path_to_data (self : GBM_Simulator) (args : list arg) : M frame :=
  match args with
  | [AFrame data; APath path] => lift (append_path_to_data data path)
  | _ => raise TypeError
  end.

(** [def _output_frame_to_dir(self, data)]; an argument without [to_csv]
    raises [AttributeError]. *)
Definition m_output_frame_to_dir (self : GBM_Simulator) (args : list arg) : M unit :=
  match args with
  | [AFrame data] =>
      write_file (os_path_join (output_dir self) (symbol self ++ ".csv")) data
  | [_] => raise AttributeError
  | _ => raise TypeError
  end.

(** [__call__]: lines 157-160, with [self] passed again at lines 158 and 160. *)
Definition call (self : GBM_Simulator) (zs : list R) : M unit :=
  data <<- m_create_empty_frame self [] ;;
  paths <<- m_create_geometric_brownian_motion self zs [AObj self; AFrame data] ;;
  data <<- m_append_path_to_data self [AFrame data; APath paths] ;;
  m_output_frame_to_dir self [AObj self; AFrame data].

(** * Properties *)

(** ** The frame builder *)

Lemma create_empty_frame_eq (self : GBM_Simulator) :
  create_empty_frame self =
  l <- date_range (start_date self) (end_date self) ;;
  Ok (mkFrame (List.length l)
              [("date", map CDate l);
               ("open", List.repeat (CNum 0%R) (List.length l));
               ("close", List.repeat (CNum 0%R) (List.length l))]).
Proof.
  unfold create_empty_frame.
  destruct (date_range (start_date self) (end_date self)); reflexivity.
Qed.

Lemma date_range_ok (sd ed : civil) (l : list Z) :
  date_range sd ed = Ok l ->
  exists a b, to_timestamp sd = Ok a /\ to_timestamp ed = Ok b /\
              l = bday_gen (Z.to_nat (b - a + 1)) (bday_rollforward a) b.
Proof.
  unfold date_range.
  destruct (to_timestamp sd) as [a|]; [|discriminate]; simpl.
  destruct (to_timestamp ed) as [b|]; [|discriminate]; simpl.
  intros H; injection H as <-; eauto.
Qed.

Lemma to_timestamp_ok (c : civil) (a : Z) :
  to_timestamp c = Ok a -> a = days_from_civil c.
Proof.
  unfold to_timestamp.
  destruct (valid_civil c); [|discriminate].
  destruct (_ && _); [|discriminate].
  intros H; injection H as <-; reflexivity.
Qed.

Lemma to_timestamp_error (c : civil) (e : exc) :
  to_timestamp c = Error e -> e = ValueError.
Proof.
  unfold to_timestamp.
  destruct (valid_civil c); [|intros H; injection H as <-; reflexivity].
  destruct (_ && _); [discriminate | intros H; injection H as <-; reflexivity].
Qed.

(** ** Column updates *)

Lemma date_range_error (sd ed : civil) (e : exc) :
  date_range sd ed = Error e ->
  e = ValueError /\
  (to_timestamp sd = Error ValueError \/ to_timestamp ed = Error ValueError).
Proof.
  unfold date_range, to_timestamp.
  destruct (valid_civil sd); [|simpl; intros H; injection H as <-; auto].
  destruct (_ && _); simpl; [|intros H; injection H as <-; auto].
  destruct (valid_civil ed); [|simpl; intros H; injection H as <-; auto].
  destruct (_ && _); simpl; [discriminate|intros H; injection H as <-; auto].
Qed.

Lemma lookup_replace_other (key k : string) (v : list cell) cs :
  k <> key -> lookup_col k (map (replace_col key v) cs) = lookup_col k cs.
Proof.
  intros Hne; unfold replace_col.
  induction cs as [|[k' v'] cs IH]; simpl; [reflexivity|].
  destruct (String.eqb key k') eqn:E; simpl.
  - apply String.eqb_eq in E; subst k'.
    apply String.eqb_neq in Hne; rewrite Hne; exact IH.
  - destruct (String.eqb k k'); [reflexivity | exact IH].
Qed.

Lemma lookup_replace_same (key : string) (v : list cell) cs :
  existsb (fun kc : string * list cell => String.eqb key (fst kc)) cs = true ->
  lookup_col key (map (replace_col key v) cs) = Some v.
Proof.
  unfold replace_col.
  induction cs as [|[k' v'] cs IH]; simpl; [discriminate|].
  destruct (String.eqb key k') eqn:E; simpl.
  - rewrite String.eqb_refl; reflexivity.
  - rewrite E; exact IH.
Qed.

Lemma lookup_app_other (key k : string) (v : list cell) cs :
  k <> key -> lookup_col k (cs ++ [(key, v)]) = lookup_col k cs.
Proof.
  intros Hne; induction cs as [|[k' v'] cs IH]; simpl.
  - apply String.eqb_neq in Hne; rewrite Hne; reflexivity.
  - destruct (String.eqb k k'); [reflexivity | exact IH].
Qed.

Lemma lookup_app_new (key : string) (v : list cell) cs :
  existsb (fun kc : string * list cell => String.eqb key (fst kc)) cs = false ->
  lookup_col key (cs ++ [(key, v)]) = Some v.
Proof.
  induction cs as [|[k' v'] cs IH]; simpl.
  - rewrite String.eqb_refl; reflexivity.
  - destruct (String.eqb key k'); [discriminate | exact IH].
Qed.









Lemma lookup_reindex (k : string) cs (rows : nat) :
  lookup_col k (reindex_cols cs rows)
  = option_map (fun _ => List.repeat CNA rows) (lookup_col k cs).
Proof.
  unfold reindex_cols; induction cs as [|[k' v'] cs IH]; simpl; [reflexivity|].
  destruct (String.eqb k k'); [reflexivity | exact IH].
Qed.

(** [_set_item_mgr] leaves the index and every other column alone, and the
    column named [k] holds the array afterwards. *)
Lemma set_item_mgr_nrows (f : frame) (k : string) (v : list cell) :
  nrows (set_item_mgr f k v) = nrows f.
Proof. unfold set_item_mgr; destruct (existsb _ _); reflexivity. Qed.

Lemma set_item_mgr_other (f : frame) (k k' : string) (v : list cell) :
  k' <> k -> frame_get (set_item_mgr f k v) k' = frame_get f k'.
Proof.
  intros Hne; unfold set_item_mgr, frame_get.
  destruct (existsb _ _); cbn [cols];
    [apply lookup_replace_other | apply lookup_app_other]; exact Hne.
Qed.

Lemma set_item_mgr_same (f : frame) (k : string) (v : list cell) :
  frame_get (set_item_mgr f k v) k = Some v.
Proof.
  unfold set_item_mgr, frame_get.
  destruct (existsb _ _) eqn:E; cbn [cols];
    [apply lookup_replace_same | apply lookup_app_new]; exact E.
Qed.




(** [data[k] = v] for a key naming at most one column: an array as long as
    the index goes to [_set_item_mgr]; an empty index takes the length of a
    non-empty array first; any other length raises [ValueError]. *)
Lemma setitem_match (f : frame) (k : string) (v : list cell) :
  (count_col k (cols f) <= 1)%nat -> List.length v = nrows f ->
  frame_setitem f k v = Ok (set_item_mgr f k v).
Proof.
  intros Hc Hlen; unfold frame_setitem.
  replace (Nat.ltb 1 (count_col k (cols f))) with false
    by (symmetry; apply Nat.ltb_ge; exact Hc).
  cbn [andb]; unfold set_item, ensure_valid_index; cbv zeta.
  rewrite Hlen.
  destruct (Nat.eqb (nrows f) 0); cbn [andb negb]; rewrite Nat.eqb_refl; reflexivity.
Qed.

Lemma setitem_reindex (f : frame) (k : string) (v : list cell) :
  (count_col k (cols f) <= 1)%nat -> nrows f = 0%nat -> v <> [] ->
  frame_setitem f k v
  = Ok (set_item_mgr (mkFrame (List.length v) (reindex_cols (cols f) (List.length v))) k v).
Proof.
  intros Hc Hn Hv; unfold frame_setitem.
  replace (Nat.ltb 1 (count_col k (cols f))) with false
    by (symmetry; apply Nat.ltb_ge; exact Hc).
  cbn [andb]; unfold set_item, ensure_valid_index; cbv zeta.
  rewrite Hn; destruct v as [|c v']; [contradiction|].
  cbn [Nat.eqb negb andb nrows List.length]; rewrite Nat.eqb_refl; reflexivity.
Qed.

Lemma setitem_mismatch (f : frame) (k : string) (v : list cell) :
  (count_col k (cols f) <= 1)%nat -> nrows f <> 0%nat -> List.length v <> nrows f ->
  frame_setitem f k v = Error ValueError.
Proof.
  intros Hc Hn Hlen; unfold frame_setitem.
  replace (Nat.ltb 1 (count_col k (cols f))) with false
    by (symmetry; apply Nat.ltb_ge; exact Hc).
  cbn [andb]; unfold set_item, ensure_valid_index; cbv zeta.
  apply Nat.eqb_neq in Hn, Hlen; rewrite Hn; cbn [andb]; rewrite Hlen; reflexivity.
Qed.

(** ** C8: the step [dt = T / n] divides two tuples *)

(** C8. The constructor stores [T] and [n] as one-element tuples, so for every
    constructor input the division [dt = T / n] raises [TypeError]; a call of
    [_create_geometric_brownian_motion] with any arguments whatever (and any
    random draws) raises [TypeError]: it never returns normally. *)
Theorem gbm_never_returns (sd ed : civil) (od : string) (Tv nv : value)
    (sym : string) (ip m sg : R) (ns : Z) (zs : list R) (args : list arg) (s : fs) :
  let self := init sd ed od Tv nv sym ip m sg ns in
  T self = VTuple [Tv] /\ n self = VTuple [nv] /\
  py_div (T self) (n self) = Error TypeError /\
  gbm_body self zs = Error TypeError /\
  m_create_geometric_brownian_motion self zs args s = (Error TypeError, s).
Proof.
  simpl; repeat split.
  destruct args as [|a [|b rest]]; reflexivity.
Qed.

(** ** Concrete configurations *)

(** Monday 2023-01-02 to Friday 2023-01-06, [T = 1], [n = 5], one path. *)
Definition cfg_week : GBM_Simulator :=
  init (mkCivil 2023 1 2) (mkCivil 2023 1 6) "out" (VNum 1) (VNum 5) "ABC"
       100 0 0 1.

Definition week_days : list Z := [19359; 19360; 19361; 19362; 19363].

Definition week_frame : frame :=
  match create_empty_frame cfg_week with
  | Ok f => f
  | Error _ => mkFrame 0 []
  end.

Definition week_path : list R := [100; 100; 100; 100; 100]%R.

(** Saturday 2023-01-07 to itself. *)
Definition cfg_saturday : GBM_Simulator :=
  init (mkCivil 2023 1 7) (mkCivil 2023 1 7) "out" (VNum 1) (VNum 5) "ABC"
       100 0 0 1.

(** End before start, negative price and volatility, no path. *)
Definition cfg_invalid : GBM_Simulator :=
  init (mkCivil 2023 1 6) (mkCivil 2023 1 2) "out" (VNum 1) (VNum 5) "ABC"
       (-1) 0 (-1) 0.

(** An impossible calendar date, ["2023-02-30"]. *)
Definition cfg_bad_date : GBM_Simulator :=
  init (mkCivil 2023 2 30) (mkCivil 2023 3 3) "out" (VNum 1) (VNum 5) "ABC"
       100 0 0 1.

Definition empty_table : frame :=
  mkFrame 0 [("date", []); ("open", []); ("close", [])].

(** A working directory with a writable [out] directory and no file yet. *)
Definition fs_out : fs := mkFS [""; "out"] [].

(** ** C9: [__call__] passes [self] twice *)

(** C9 (corrected). For every configuration whose dates [pd.date_range]
    accepts, [__call__] raises [TypeError] and the file system is left as it
    was: line 158 gives [_create_geometric_brownian_motion] two arguments
    after the bound [self] where its signature takes one; line 160 would do
    the same to [_output_frame_to_dir]. When pandas rejects [start_date] or
    [end_date], [__call__] raises [ValueError] instead, and the file system is
    left as it was too. *)
Theorem call_raises_type_error (sd ed : civil) (od : string) (Tv nv : value)
    (sym : string) (ip m sg : R) (ns : Z) (zs : list R) (s : fs) :
  let self := init sd ed od Tv nv sym ip m sg ns in
  (forall l, date_range sd ed = Ok l -> call self zs s = (Error TypeError, s)) /\
  (to_timestamp sd = Error ValueError \/ to_timestamp ed = Error ValueError ->
   call self zs s = (Error ValueError, s)) /\
  (forall d, m_create_geometric_brownian_motion self zs [AObj self; AFrame d] s
             = (Error TypeError, s)) /\
  (forall d, m_output_frame_to_dir self [AObj self; AFrame d] s = (Error TypeError, s)).
Proof.
  intros self.
  assert (Hcall : call self zs s =
          match date_range sd ed with
          | Ok _ => (Error TypeError, s)
          | Error e => (Error e, s)
          end).
  { unfold call, mbind, m_create_empty_frame, lift.
    rewrite create_empty_frame_eq; subst self; simpl start_date; simpl end_date.
    destruct (date_range sd ed); reflexivity. }
  split; [|split; [|split; intros d; reflexivity]].
  - intros l Hdr; rewrite Hcall, Hdr; reflexivity.
  - intros Hts; rewrite Hcall; unfold date_range.
    destruct Hts as [H|H]; rewrite H; simpl; [reflexivity|].
    destruct (to_timestamp sd) eqn:Hsd; [reflexivity|].
    rewrite (to_timestamp_error _ _ Hsd); reflexivity.
Qed.

Lemma call_raises_type_error_witness :
  date_range (mkCivil 2023 1 2) (mkCivil 2023 1 6) = Ok week_days /\
  call cfg_week [] fs_out = (Error TypeError, fs_out).
Proof.
  assert (H : date_range (mkCivil 2023 1 2) (mkCivil 2023 1 6) = Ok week_days)
    by (vm_compute; reflexivity).
  split; [exact H|].
  exact (proj1 (call_raises_type_error (mkCivil 2023 1 2) (mkCivil 2023 1 6) "out"
                  (VNum 1) (VNum 5) "ABC" 100 0 0 1 [] fs_out) week_days H).
Defined.

(** C9 counterexample: with start date ["2023-02-30"], [pd.date_range]
    raises a [ValueError] before line 158 is reached. *)
Lemma call_bad_date_value_error :
  call cfg_bad_date [] fs_out = (Error ValueError, fs_out) /\
  ~ raises_named (fst (call cfg_bad_date [] fs_out)) "TypeError".
Proof.
  assert (H : call cfg_bad_date [] fs_out = (Error ValueError, fs_out)) by reflexivity.
  split; [exact H|].
  rewrite H; simpl; intros [e [He Hn]]; injection He as <-; discriminate.
Qed.

(** ** C10: [data['close'] = path] *)

(** C10 (corrected). For every frame with at most one column named [close]
    and every path as long as its index, [_append_path_to_data] succeeds;
    afterwards every column other than [close] (in particular [date] and
    [open]) is unchanged, the [close] column holds the path, and the index
    length is unchanged. *)
Theorem append_path_only_close (data : frame) (path : list R) :
  (count_col "close" (cols data) <= 1)%nat ->
  List.length path = nrows data ->
  exists data',
    append_path_to_data data path = Ok data' /\
    nrows data' = nrows data /\
    frame_get data' "date" = frame_get data "date" /\
    frame_get data' "open" = frame_get data "open" /\
    (forall k, k <> "close" -> frame_get data' k = frame_get data k) /\
    frame_get data' "close" = Some (map CNum path).
Proof.
  intros Hc Hlen; unfold append_path_to_data.
  rewrite setitem_match by (rewrite ?length_map; assumption).
  eexists; split; [reflexivity|].
  split; [apply set_item_mgr_nrows|].
  split; [apply set_item_mgr_other; discriminate|].
  split; [apply set_item_mgr_other; discriminate|].
  split; [intros k Hk; apply set_item_mgr_other; exact Hk|].
  apply set_item_mgr_same.
Qed.

Lemma append_path_only_close_witness :
  (count_col "close" (cols week_frame) <= 1)%nat /\
  List.length week_path = nrows week_frame /\
  exists data',
    append_path_to_data week_frame week_path = Ok data' /\
    nrows data' = nrows week_frame /\
    frame_get data' "date" = frame_get week_frame "date" /\
    frame_get data' "open" = frame_get week_frame "open" /\
    (forall k, k <> "close" -> frame_get data' k = frame_get week_frame k) /\
    frame_get data' "close" = Some (map CNum week_path).
Proof.
  assert (Hc : (count_col "close" (cols week_frame) <= 1)%nat) by (vm_compute; lia).
  assert (H : List.length week_path = nrows week_frame) by reflexivity.
  split; [exact Hc|]; split; [exact H | exact (append_path_only_close week_frame week_path Hc H)].
Defined.

(** Two columns named [close] over two rows. *)
Definition two_close_frame : frame :=
  mkFrame 2 [("close", [CNum 0; CNum 0]); ("close", [CNum 0; CNum 0])].

(** C10 counterexample: with two columns named [close] and a path of two
    entries, pandas writes one entry per column, broadcast to both rows; no
    column named [close] holds the path [1, 2]. *)
Lemma append_two_close_columns :
  append_path_to_data two_close_frame [1; 2]%R
  = Ok (mkFrame 2 [("close", [CNum 1; CNum 1]); ("close", [CNum 2; CNum 2])]) /\
  frame_get (mkFrame 2 [("close", [CNum 1; CNum 1]); ("close", [CNum 2; CNum 2])])
            "close" <> Some (map CNum [1; 2]%R).
Proof.
  split; [reflexivity|].
  simpl; intros H; injection H as H; lra.
Qed.

(** ** C2: the columns of the table *)

(** C2 (corrected). For every configuration whose dates [pd.date_range]
    accepts, with index [l], [_create_empty_frame] builds the columns [date],
    [open], [close] in this order, [date] holding [l]. After
    [_append_path_to_data] the columns are still exactly [date], [open],
    [close] and [close] holds the path. A path as long as [l] leaves [date]
    as [l] and [open] all zeros; on an empty index a non-empty path first
    re-indexes the frame to its own length, [date] and [open] then holding
    missing values; any other length raises [ValueError]. There is no
    [path_i] column and no [average] column. *)
Theorem table_columns (self : GBM_Simulator) (l : list Z) (path : list R) :
  date_range (start_date self) (end_date self) = Ok l ->
  exists f,
    create_empty_frame self = Ok f /\
    col_names f = ["date"; "open"; "close"] /\
    nrows f = List.length l /\
    frame_get f "date" = Some (map CDate l) /\
    (forall f', append_path_to_data f path = Ok f' ->
       col_names f' = ["date"; "open"; "close"] /\
       frame_get f' "close" = Some (map CNum path)) /\
    (List.length path = List.length l ->
     exists f', append_path_to_data f path = Ok f' /\
       nrows f' = List.length l /\
       frame_get f' "date" = Some (map CDate l) /\
       frame_get f' "open" = Some (List.repeat (CNum 0%R) (List.length l))) /\
    (l = [] -> path <> [] ->
     exists f', append_path_to_data f path = Ok f' /\
       nrows f' = List.length path /\
       frame_get f' "date" = Some (List.repeat CNA (List.length path)) /\
       frame_get f' "open" = Some (List.repeat CNA (List.length path))) /\
    (List.length path <> List.length l -> l <> [] ->
     append_path_to_data f path = Error ValueError).
Proof.
  intros Hdr; rewrite create_empty_frame_eq, Hdr; simpl.
  set (f := mkFrame (List.length l)
              [("date", map CDate l);
               ("open", List.repeat (CNum 0%R) (List.length l));
               ("close", List.repeat (CNum 0%R) (List.length l))]).
  assert (Hc : (count_col "close" (cols f) <= 1)%nat) by (unfold f, count_col; cbn; lia).
  assert (Hmatch : List.length path = List.length l ->
            append_path_to_data f path
            = Ok (mkFrame (List.length l)
                    [("date", map CDate l);
                     ("open", List.repeat (CNum 0%R) (List.length l));
                     ("close", map CNum path)])).
  { intros Hlen; unfold append_path_to_data.
    rewrite setitem_match by (rewrite ?length_map; assumption); reflexivity. }
  assert (Hre : l = [] -> path <> [] ->
            append_path_to_data f path
            = Ok (mkFrame (List.length path)
                    [("date", List.repeat CNA (List.length path));
                     ("open", List.repeat CNA (List.length path));
                     ("close", map CNum path)])).
  { intros Hl Hp; unfold append_path_to_data.
    rewrite setitem_reindex;
      [| exact Hc | subst f; rewrite Hl; reflexivity
       | destruct path; [contradiction | discriminate]].
    rewrite length_map; subst f; reflexivity. }
  assert (Hmis : List.length path <> List.length l -> l <> [] ->
            append_path_to_data f path = Error ValueError).
  { intros Hlen Hl; unfold append_path_to_data.
    apply setitem_mismatch; [exact Hc | | rewrite length_map; exact Hlen].
    destruct l; [contradiction | simpl; discriminate]. }
  exists f; split; [reflexivity|]; split; [reflexivity|]; split; [reflexivity|].
  split; [reflexivity|].
  split; [|split; [|split]].
  - intros f' Hf'.
    destruct (Nat.eq_dec (List.length path) (List.length l)) as [E|E].
    + rewrite (Hmatch E) in Hf'; injection Hf' as <-; split; reflexivity.
    + destruct l as [|d l'].
      * assert (Hp : path <> []) by (destruct path; [contradiction E; reflexivity | discriminate]).
        rewrite (Hre eq_refl Hp) in Hf'; injection Hf' as <-; split; reflexivity.
      * rewrite (Hmis E) in Hf' by discriminate; discriminate.
  - intros E; rewrite (Hmatch E); eexists; split; [reflexivity|]; repeat split.
  - intros Hl Hp; rewrite (Hre Hl Hp); eexists; split; [reflexivity|]; repeat split.
  - exact Hmis.
Qed.

Lemma table_columns_witness :
  date_range (start_date cfg_week) (end_date cfg_week) = Ok week_days /\
  exists f,
    create_empty_frame cfg_week = Ok f /\
    col_names f = ["date"; "open"; "close"] /\
    frame_get f "date" = Some (map CDate week_days).
Proof.
  assert (H : date_range (start_date cfg_week) (end_date cfg_week) = Ok week_days)
    by (vm_compute; reflexivity).
  split; [exact H|].
  destruct (table_columns cfg_week week_days week_path H)
    as [f [Hf [Hn [_ [Hd _]]]]].
  exists f; split; [exact Hf|]; split; [exact Hn | exact Hd].
Defined.

(** C2 counterexample: [num_sims = 2] over 2023-01-02..06 gives a table
    whose columns are [date], [open], [close]: no [path_1] nor [average]. *)
Lemma table_no_path_columns :
  let self := init (mkCivil 2023 1 2) (mkCivil 2023 1 6) "out" (VNum 1) (VNum 5)
                   "ABC" 100 0 0 2 in
  exists f f',
    create_empty_frame self = Ok f /\
    append_path_to_data f week_path = Ok f' /\
    col_names f' = ["date"; "open"; "close"] /\
    ~ In "path_1" (col_names f') /\ ~ In "average" (col_names f').
Proof.
  intros self; do 2 eexists.
  split; [reflexivity|]; split; [reflexivity|]; split; [reflexivity|].
  simpl; split; intros H; repeat (destruct H as [H|H]; [discriminate H|]); exact H.
Qed.

(** ** C4: a range without business day *)

(** C4 (corrected). When the date range holds no business day,
    [_create_empty_frame] raises nothing: it returns a frame with zero rows
    and the columns [date], [open], [close]. The code has no
    [DegenerateRangeError]. *)
Theorem empty_range_empty_frame (self : GBM_Simulator) :
  date_range (start_date self) (end_date self) = Ok [] ->
  create_empty_frame self = Ok empty_table.
Proof.
  intros H; rewrite create_empty_frame_eq, H; reflexivity.
Qed.

Lemma empty_range_empty_frame_witness :
  date_range (start_date cfg_saturday) (end_date cfg_saturday) = Ok [] /\
  create_empty_frame cfg_saturday = Ok empty_table.
Proof.
  assert (H : date_range (start_date cfg_saturday) (end_date cfg_saturday) = Ok [])
    by (vm_compute; reflexivity).
  split; [exact H | exact (empty_range_empty_frame cfg_saturday H)].
Defined.

(** C4 counterexample: from Saturday 2023-01-07 to itself the frame builder
    returns the empty table, and [__call__] raises [TypeError], not a
    [DegenerateRangeError]. *)
Lemma saturday_no_degenerate_error :
  create_empty_frame cfg_saturday = Ok empty_table /\
  call cfg_saturday [] fs_out = (Error TypeError, fs_out) /\
  ~ raises_named (fst (call cfg_saturday [] fs_out)) "DegenerateRangeError".
Proof.
  assert (H : call cfg_saturday [] fs_out = (Error TypeError, fs_out)) by reflexivity.
  split; [reflexivity|]; split; [exact H|].
  rewrite H; simpl; intros [e [He Hn]]; injection He as <-; discriminate.
Qed.

(** ** C5: no validation of the configuration *)

(** C5 (corrected). The constructor validates nothing: it stores every
    argument as given (only [T] and [n] are wrapped in tuples). What
    [_create_empty_frame] and [__call__] do depends on the two dates only, not
    on [output_dir], [T], [n], [symbol], [init_price], [mu], [sigma] or
    [num_sims]; [__call__] ends in [TypeError] or [ValueError], never in
    another error; with [end_date] before [start_date], [_create_empty_frame]
    returns the empty [date]/[open]/[close] table. *)
Theorem no_configuration_check (sd ed : civil) (od : string) (Tv nv : value)
    (sym : string) (ip m sg : R) (ns : Z) :
  let self := init sd ed od Tv nv sym ip m sg ns in
  self = mkGBM sd ed od (VTuple [Tv]) (VTuple [nv]) sym ip m sg ns /\
  (forall od' Tv' nv' sym' ip' m' sg' ns',
     create_empty_frame (init sd ed od' Tv' nv' sym' ip' m' sg' ns')
     = create_empty_frame self) /\
  (forall od' Tv' nv' sym' ip' m' sg' ns' zs s,
     call (init sd ed od' Tv' nv' sym' ip' m' sg' ns') zs s = call self zs s) /\
  (forall zs s, call self zs s = (Error TypeError, s) \/
                call self zs s = (Error ValueError, s)) /\
  (forall a b, to_timestamp sd = Ok a -> to_timestamp ed = Ok b -> b < a ->
     create_empty_frame self = Ok empty_table).
Proof.
  intros self.
  assert (Hcall : forall od' Tv' nv' sym' ip' m' sg' ns' zs s,
            call (init sd ed od' Tv' nv' sym' ip' m' sg' ns') zs s =
            match date_range sd ed with
            | Ok _ => (Error TypeError, s)
            | Error e => (Error e, s)
            end).
  { intros; unfold call, mbind, m_create_empty_frame, lift.
    rewrite create_empty_frame_eq; simpl start_date; simpl end_date.
    destruct (date_range sd ed); reflexivity. }
  split; [reflexivity|].
  split; [intros; rewrite !create_empty_frame_eq; reflexivity|].
  split; [intros; subst self; rewrite !Hcall; reflexivity|].
  split.
  - intros zs s; subst self; rewrite Hcall.
    destruct (date_range sd ed) eqn:Hdr; [left; reflexivity|].
    destruct (date_range_error _ _ _ Hdr) as [-> _]; right; reflexivity.
  - intros a b Ha Hb Hlt.
    subst self; rewrite create_empty_frame_eq; simpl start_date; simpl end_date.
    unfold date_range; rewrite Ha, Hb; simpl.
    replace (Z.to_nat (b - a + 1)) with 0%nat by lia; reflexivity.
Qed.

Lemma no_configuration_check_witness :
  to_timestamp (mkCivil 2023 1 6) = Ok 19363 /\
  to_timestamp (mkCivil 2023 1 2) = Ok 19359 /\
  create_empty_frame cfg_invalid = Ok empty_table.
Proof.
  assert (Ha : to_timestamp (mkCivil 2023 1 6) = Ok 19363) by (vm_compute; reflexivity).
  assert (Hb : to_timestamp (mkCivil 2023 1 2) = Ok 19359) by (vm_compute; reflexivity).
  split; [exact Ha|]; split; [exact Hb|].
  refine (proj2 (proj2 (proj2 (proj2
    (no_configuration_check (mkCivil 2023 1 6) (mkCivil 2023 1 2) "out"
       (VNum 1) (VNum 5) "ABC" (-1) 0 (-1) 0))))
    19363 19359 Ha Hb _).
  lia.
Defined.

(** C5 counterexample: end before start, [init_price = -1], [sigma = -1]
    and [num_sims = 0]: the frame is still computed and [__call__] raises no
    [ConfigurationError]. *)
Lemma invalid_config_accepted :
  create_empty_frame cfg_invalid = Ok empty_table /\
  ~ raises_named (fst (call cfg_invalid [] fs_out)) "ConfigurationError".
Proof.
  assert (H : call cfg_invalid [] fs_out = (Error TypeError, fs_out)) by reflexivity.
  split; [reflexivity|].
  rewrite H; simpl; intros [e [He Hn]]; injection He as <-; discriminate.
Qed.

(** ** C3: the step [dt] *)

(** C3 (corrected). [dt] is written [T / n] with [T] the constructor's own
    argument, stored independently of [n] (the code never sets [T = n / n]);
    for numbers with [n <> 0] the formula gives [T / n], which is [1 / n]
    exactly when the caller passes [T = 1]. *)
Theorem dt_formula (sd ed : civil) (od : string) (Tx nx : R) (sym : string)
    (ip m sg : R) (ns : Z) :
  nx <> 0%R ->
  T (init sd ed od (VNum Tx) (VNum nx) sym ip m sg ns) = VTuple [VNum Tx] /\
  py_div (VNum Tx) (VNum nx) = Ok (VNum (Tx / nx)) /\
  (Tx / nx = 1 / nx <-> Tx = 1)%R.
Proof.
  intros Hn; split; [reflexivity|]; split.
  - unfold py_div; destruct (Req_EM_T nx 0); [contradiction | reflexivity].
  - split; intros H; [|subst; reflexivity].
    unfold Rdiv in H.
    apply (Rmult_eq_reg_r (/ nx)); [exact H | apply Rinv_neq_0_compat; exact Hn].
Qed.

Lemma dt_formula_witness :
  (5 <> 0)%R /\
  T cfg_week = VTuple [VNum 1] /\
  py_div (VNum 1) (VNum 5) = Ok (VNum (1 / 5)).
Proof.
  assert (H : (5 <> 0)%R) by lra.
  split; [exact H|].
  destruct (dt_formula (mkCivil 2023 1 2) (mkCivil 2023 1 6) "out" 1 5 "ABC"
              100 0 0 1 H) as [H1 [H2 _]].
  split; [exact H1 | exact H2].
Defined.

(** C3 counterexample: with [T = 2] and [n = 5] the stored [T] is [(2,)],
    not [n / n = 1], and the division of line 108 does not give [1 / 5]. *)
Lemma dt_not_one_over_n :
  let self := init (mkCivil 2023 1 2) (mkCivil 2023 1 6) "out" (VNum 2) (VNum 5)
                   "ABC" 100 0 0 1 in
  T self <> VTuple [VNum (5 / 5)] /\ T self <> VNum (5 / 5) /\
  py_div (T self) (n self) <> Ok (VNum (1 / 5)).
Proof.
  intros self; simpl; split; [|split; discriminate].
  intros H; injection H as H; lra.
Qed.

(** ** C6: the business-day index *)

Lemma weekday_shift (d k : Z) : weekday (d + k) = (weekday d + k) mod 7.
Proof. unfold weekday; rewrite Zplus_mod_idemp_l; f_equal; ring. Qed.

Lemma weekday_cases (d : Z) :
  weekday d = 0 \/ weekday d = 1 \/ weekday d = 2 \/ weekday d = 3 \/
  weekday d = 4 \/ weekday d = 5 \/ weekday d = 6.
Proof.
  assert (0 <= weekday d < 7) by (unfold weekday; apply Z.mod_pos_bound; lia).
  lia.
Qed.

Ltac weekday_case d :=
  destruct (weekday_cases d) as [W|[W|[W|[W|[W|[W|W]]]]]]; rewrite W.

Lemma bday_next_gt (d : Z) : d < bday_next d.
Proof. unfold bday_next; weekday_case d; simpl; lia. Qed.

Lemma bday_next_business (d : Z) : is_business_day (bday_next d) = true.
Proof.
  unfold is_business_day, bday_next.
  weekday_case d; simpl; rewrite weekday_shift, W; reflexivity.
Qed.

Lemma bday_rollforward_ge (d : Z) : d <= bday_rollforward d.
Proof. unfold bday_rollforward; weekday_case d; simpl; lia. Qed.

Lemma bday_rollforward_business (d : Z) : is_business_day (bday_rollforward d) = true.
Proof.
  unfold is_business_day, bday_rollforward.
  weekday_case d; simpl; try rewrite weekday_shift; rewrite W; reflexivity.
Qed.

Lemma bday_gen_props (fuel : nat) (cur stop : Z) :
  is_business_day cur = true ->
  Forall (fun x => is_business_day x = true /\ cur <= x <= stop)
         (bday_gen fuel cur stop) /\
  StronglySorted Z.lt (bday_gen fuel cur stop).
Proof.
  revert cur; induction fuel as [|f IH]; intros cur Hb; simpl.
  - split; constructor.
  - destruct (cur <=? stop) eqn:Hle; [|split; constructor].
    apply Z.leb_le in Hle.
    destruct (IH (bday_next cur) (bday_next_business cur)) as [Hall Hsort].
    pose proof (bday_next_gt cur) as Hgt.
    split.
    + constructor; [split; [exact Hb | lia]|].
      eapply Forall_impl; [|exact Hall]; intros x [Hx1 Hx2]; split; [exact Hx1 | lia].
    + constructor; [exact Hsort|].
      eapply Forall_impl; [|exact Hall]; intros x [_ Hx]; lia.
Qed.

Lemma strongly_sorted_lt_nodup (l : list Z) : StronglySorted Z.lt l -> NoDup l.
Proof.
  induction 1 as [|x l Hs IH Hall]; constructor; [|exact IH].
  intros Hin; rewrite Forall_forall in Hall; specialize (Hall x Hin); lia.
Qed.

(** C6. For every configuration whose dates pandas accepts, with
    [start_date <= end_date], [pd.date_range(start_date, end_date, freq='B')]
    returns a list of dates that is strictly increasing, has no duplicates,
    and holds only weekdays (Monday to Friday) between [start_date] and
    [end_date] inclusive. *)
Theorem date_index_props (sd ed : civil) (a b : Z) :
  to_timestamp sd = Ok a -> to_timestamp ed = Ok b -> a <= b ->
  exists l,
    date_range sd ed = Ok l /\
    StronglySorted Z.lt l /\ NoDup l /\
    Forall (fun d => weekday d < 5 /\
                     days_from_civil sd <= d <= days_from_civil ed) l.
Proof.
  intros Ha Hb _.
  pose proof (to_timestamp_ok _ _ Ha) as Ea; pose proof (to_timestamp_ok _ _ Hb) as Eb.
  unfold date_range; rewrite Ha, Hb; simpl; eexists; split; [reflexivity|].
  destruct (bday_gen_props (Z.to_nat (b - a + 1)) (bday_rollforward a) b
              (bday_rollforward_business a)) as [Hall Hsort].
  pose proof (bday_rollforward_ge a).
  split; [exact Hsort|]; split; [apply strongly_sorted_lt_nodup; exact Hsort|].
  eapply Forall_impl; [|exact Hall]; intros x [Hx1 Hx2].
  unfold is_business_day in Hx1; apply Z.ltb_lt in Hx1; split; [exact Hx1 | lia].
Qed.

Lemma date_index_props_witness :
  to_timestamp (mkCivil 2023 1 6) = Ok 19363 /\
  to_timestamp (mkCivil 2023 1 16) = Ok 19373 /\
  exists l,
    date_range (mkCivil 2023 1 6) (mkCivil 2023 1 16) = Ok l /\
    StronglySorted Z.lt l /\ NoDup l /\
    Forall (fun d => weekday d < 5 /\
                     days_from_civil (mkCivil 2023 1 6) <= d <=
                     days_from_civil (mkCivil 2023 1 16)) l.
Proof.
  assert (Ha : to_timestamp (mkCivil 2023 1 6) = Ok 19363) by (vm_compute; reflexivity).
  assert (Hb : to_timestamp (mkCivil 2023 1 16) = Ok 19373) by (vm_compute; reflexivity).
  split; [exact Ha|]; split; [exact Hb|].
  apply (date_index_props _ _ 19363 19373 Ha Hb); lia.
Defined.

(** The index of the week 2023-01-02 .. 2023-01-06 has its five days, and
    Friday 2023-01-06 .. Monday 2023-01-16 skips both weekends. *)
Example date_range_week :
  date_range (mkCivil 2023 1 2) (mkCivil 2023 1 6) = Ok week_days.
Proof. vm_compute; reflexivity. Qed.

Example date_range_two_weekends :
  date_range (mkCivil 2023 1 6) (mkCivil 2023 1 16)
  = Ok [19363; 19366; 19367; 19368; 19369; 19370; 19373].
Proof. vm_compute; reflexivity. Qed.

(** ** C1: cumulative product of factors = exponential of cumulative sum *)

(** The reference of the specification, in its words (steps 3-5 of the
    path generator): [increment[k] = (mu - 0.5 * sigma^2) * dt +
    sigma * sqrt(dt) * Z[k]], [cum[t]] the sum of the increments of steps
    [k <= t], [price[t] = init_price * exp(cum[t])]. *)
Definition spec_increment (mu sigma dt z : R) : R :=
  ((mu - 0.5 * sigma ^ 2) * dt + sigma * sqrt dt * z)%R.

Definition spec_cum (mu sigma dt : R) (zs : list R) (t : nat) : R :=
  fold_right Rplus 0%R (firstn (S t) (map (spec_increment mu sigma dt) zs)).

Definition spec_prices (init_price mu sigma dt : R) (zs : list R) : list R :=
  map (fun t => init_price * exp (spec_cum mu sigma dt zs t))%R
      (seq 0 (List.length zs)).

Lemma cumprod_acc_exp (a : R) (xs : list R) :
  cumprod_acc (exp a) (map exp xs) =
  map (fun t => exp (a + fold_right Rplus 0 (firstn (S t) xs)))%R
      (seq 0 (List.length xs)).
Proof.
  revert a; induction xs as [|x xs IH]; intros a; [reflexivity|].
  simpl; rewrite <- exp_plus, IH, <- seq_shift, map_map.
  f_equal; [f_equal; ring|].
  apply map_ext; intros t; simpl; f_equal; ring.
Qed.

Lemma cumprod_exp (xs : list R) :
  cumprod (map exp xs) =
  map (fun t => exp (fold_right Rplus 0 (firstn (S t) xs)))%R
      (seq 0 (List.length xs)).
Proof.
  destruct xs as [|x xs]; [reflexivity|].
  simpl; rewrite cumprod_acc_exp, <- seq_shift, map_map, Rplus_0_r.
  reflexivity.
Qed.

(** C1. Over the reals, the prices of lines 111-117 (per-step factors
    [exp(...)], their cumulative product, scaled by [init_price]) are, at
    every step [t], [init_price * exp(cum[t])] with [cum[t]] the sum of the
    log-return increments of steps [k <= t]: the two lists are equal. *)
Theorem gbm_prices_refine (ip m sg dt : R) (zs : list R) :
  gbm_prices ip m sg dt zs = spec_prices ip m sg dt zs.
Proof.
  unfold gbm_prices, spec_prices, asset_path, spec_cum.
  replace (map (fun z => exp ((m - sg ^ 2 / 2) * dt + sg * (sqrt dt * z)))%R zs)
    with (map exp (map (spec_increment m sg dt) zs)).
  - rewrite cumprod_exp, map_map, length_map; reflexivity.
  - rewrite map_map; apply map_ext; intros z; unfold spec_increment; apply f_equal.
    assert (H : 0.5%R = (/ 2)%R) by lra; rewrite H; field.
Qed.

(** ** C7: the prices are positive *)

Lemma cumprod_acc_pos (acc : R) (l : list R) :
  (0 < acc)%R -> Forall (fun x => 0 < x)%R l ->
  Forall (fun x => 0 < x)%R (cumprod_acc acc l).
Proof.
  revert acc; induction l as [|x l IH]; intros acc Hacc Hl; simpl; [constructor|].
  inversion Hl as [|? ? Hx Hl']; subst.
  assert (Hp : (0 < acc * x)%R) by (apply Rmult_lt_0_compat; assumption).
  constructor; [exact Hp | apply IH; assumption].
Qed.

Lemma cumprod_pos (l : list R) :
  Forall (fun x => 0 < x)%R l -> Forall (fun x => 0 < x)%R (cumprod l).
Proof.
  destruct l as [|x l]; simpl; [constructor|].
  intros Hl; inversion Hl as [|? ? Hx Hl']; subst.
  constructor; [exact Hx | apply cumprod_acc_pos; assumption].
Qed.

(** C7. Whenever [init_price > 0], for every drift, volatility, step and
    draw, every price of lines 111-117 is strictly positive (over the reals). *)
Theorem gbm_prices_pos (ip m sg dt : R) (zs : list R) :
  (0 < ip)%R -> Forall (fun p => 0 < p)%R (gbm_prices ip m sg dt zs).
Proof.
  intros Hip; unfold gbm_prices.
  assert (Hf : Forall (fun x => 0 < x)%R (asset_path m sg dt zs)).
  { unfold asset_path; apply Forall_forall; intros x Hx.
    apply in_map_iff in Hx; destruct Hx as [z [<- _]]; apply exp_pos. }
  pose proof (cumprod_pos _ Hf) as Hc.
  apply Forall_forall; intros p Hp; apply in_map_iff in Hp.
  destruct Hp as [q [<- Hq]]; rewrite Forall_forall in Hc.
  apply Rmult_lt_0_compat; [exact Hip | exact (Hc q Hq)].
Qed.

Lemma gbm_prices_pos_witness :
  (0 < 100)%R /\ Forall (fun p => 0 < p)%R (gbm_prices 100 0 0 1 [0; 1; -1]%R).
Proof.
  assert (H : (0 < 100)%R) by lra.
  split; [exact H | exact (gbm_prices_pos 100 0 0 1 [0; 1; -1]%R H)].
Defined.

(** * Further properties of the code *)

(** ** The business-day index misses no business day *)

Lemma bday_next_least (cur d : Z) :
  cur < d -> is_business_day d = true -> bday_next cur <= d.
Proof.
  intros Hlt Hd; unfold is_business_day in Hd; apply Z.ltb_lt in Hd.
  unfold bday_next.
  destruct (weekday_cases cur) as [W|[W|[W|[W|[W|[W|W]]]]]]; rewrite W; simpl; try lia.
  - destruct (Z.eq_dec d (cur + 1)) as [->|N1]; [rewrite weekday_shift, W in Hd; cbv in Hd; discriminate|].
    destruct (Z.eq_dec d (cur + 2)) as [->|N2]; [rewrite weekday_shift, W in Hd; cbv in Hd; discriminate|].
    lia.
  - destruct (Z.eq_dec d (cur + 1)) as [->|N1]; [rewrite weekday_shift, W in Hd; cbv in Hd; discriminate|].
    lia.
Qed.

Lemma bday_rollforward_least (s d : Z) :
  s <= d -> is_business_day d = true -> bday_rollforward s <= d.
Proof.
  intros Hle Hd; unfold is_business_day in Hd; apply Z.ltb_lt in Hd.
  unfold bday_rollforward.
  destruct (weekday_cases s) as [W|[W|[W|[W|[W|[W|W]]]]]]; rewrite W; simpl; try lia.
  - destruct (Z.eq_dec d s) as [->|N0]; [rewrite W in Hd; lia|].
    destruct (Z.eq_dec d (s + 1)) as [->|N1]; [rewrite weekday_shift, W in Hd; cbv in Hd; discriminate|].
    lia.
  - destruct (Z.eq_dec d s) as [->|N0]; [rewrite W in Hd; lia|].
    lia.
Qed.

Lemma bday_gen_complete (fuel : nat) (cur stop d : Z) :
  cur <= d <= stop -> d - cur < Z.of_nat fuel -> is_business_day d = true ->
  In d (bday_gen fuel cur stop).
Proof.
  revert cur; induction fuel as [|f IH]; intros cur Hr Hf Hd; simpl; [lia|].
  replace (cur <=? stop) with true by (symmetry; apply Z.leb_le; lia).
  destruct (Z.eq_dec d cur) as [->|Hne]; [left; reflexivity|right].
  pose proof (bday_next_least cur d ltac:(lia) Hd).
  pose proof (bday_next_gt cur).
  apply IH; [lia | lia | exact Hd].
Qed.

(** X1. Every business day (Monday to Friday) from [start_date] to [end_date]
    inclusive is in the index returned by
    [pd.date_range(start_date, end_date, freq='B')]. *)
Theorem date_range_complete (sd ed : civil) (l : list Z) :
  date_range sd ed = Ok l ->
  forall d, days_from_civil sd <= d <= days_from_civil ed -> weekday d < 5 ->
  In d l.
Proof.
  intros Hdr d Hr Hw.
  destruct (date_range_ok _ _ _ Hdr) as [a [b [Ha [Hb ->]]]].
  rewrite <- (to_timestamp_ok _ _ Ha), <- (to_timestamp_ok _ _ Hb) in Hr.
  assert (Hd : is_business_day d = true) by (apply Z.ltb_lt; exact Hw).
  pose proof (bday_rollforward_least a d ltac:(lia) Hd).
  pose proof (bday_rollforward_ge a).
  apply bday_gen_complete; [lia | rewrite Z2Nat.id by lia; lia | exact Hd].
Qed.

Lemma date_range_complete_witness :
  date_range (mkCivil 2023 1 6) (mkCivil 2023 1 16)
  = Ok [19363; 19366; 19367; 19368; 19369; 19370; 19373] /\
  In 19370 [19363; 19366; 19367; 19368; 19369; 19370; 19373].
Proof.
  assert (H : date_range (mkCivil 2023 1 6) (mkCivil 2023 1 16)
              = Ok [19363; 19366; 19367; 19368; 19369; 19370; 19373])
    by (vm_compute; reflexivity).
  split; [exact H|].
  apply (date_range_complete _ _ _ H); vm_compute; [split; discriminate | reflexivity].
Defined.

(** ** [_append_path_to_data]: lengths, re-indexing and repeated writes *)

(** X4. For a frame with at most one [close] column and a non-empty index, a
    path of another length makes [_append_path_to_data] raise [ValueError]. *)
Theorem append_path_length_mismatch (data : frame) (path : list R) :
  (count_col "close" (cols data) <= 1)%nat ->
  nrows data <> 0%nat ->
  List.length path <> nrows data ->
  append_path_to_data data path = Error ValueError.
Proof.
  intros Hc Hn Hlen; unfold append_path_to_data.
  apply setitem_mismatch; rewrite ?length_map; assumption.
Qed.

Lemma append_path_length_mismatch_witness :
  (count_col "close" (cols week_frame) <= 1)%nat /\
  nrows week_frame <> 0%nat /\
  List.length [1]%R <> nrows week_frame /\
  append_path_to_data week_frame [1]%R = Error ValueError.
Proof.
  assert (Hc : (count_col "close" (cols week_frame) <= 1)%nat) by (vm_compute; lia).
  assert (Hn : nrows week_frame <> 0%nat) by (vm_compute; discriminate).
  assert (Hl : List.length [1]%R <> nrows week_frame) by (vm_compute; discriminate).
  split; [exact Hc|]; split; [exact Hn|]; split; [exact Hl|].
  exact (append_path_length_mismatch week_frame [1]%R Hc Hn Hl).
Defined.

(** X12. On a frame with an empty index and at most one [close] column, a
    non-empty path first re-indexes the frame to the path's length: the call
    succeeds, the frame then has one row per price, every other column keeps
    its place but holds only missing values (NaT, NaN), and [close] holds the
    path. *)
Theorem append_path_reindex (data : frame) (path : list R) :
  (count_col "close" (cols data) <= 1)%nat ->
  nrows data = 0%nat -> path <> [] ->
  exists data',
    append_path_to_data data path = Ok data' /\
    nrows data' = List.length path /\
    (forall k, k <> "close" ->
       frame_get data' k
       = option_map (fun _ => List.repeat CNA (List.length path)) (frame_get data k)) /\
    frame_get data' "close" = Some (map CNum path).
Proof.
  intros Hc Hn Hp; unfold append_path_to_data.
  rewrite setitem_reindex by (try destruct path; try contradiction; try discriminate;
                              assumption).
  rewrite length_map; eexists; split; [reflexivity|].
  split; [apply set_item_mgr_nrows|].
  split; [|apply set_item_mgr_same].
  intros k Hk; rewrite set_item_mgr_other by exact Hk.
  unfold frame_get; cbn [cols]; apply lookup_reindex.
Qed.

Lemma append_path_reindex_witness :
  (count_col "close" (cols empty_table) <= 1)%nat /\
  nrows empty_table = 0%nat /\ [1; 2]%R <> [] /\
  exists data',
    append_path_to_data empty_table [1; 2]%R = Ok data' /\
    nrows data' = 2%nat /\
    frame_get data' "date" = Some [CNA; CNA] /\
    frame_get data' "close" = Some (map CNum [1; 2]%R).
Proof.
  assert (Hc : (count_col "close" (cols empty_table) <= 1)%nat) by (vm_compute; lia).
  assert (Hn : nrows empty_table = 0%nat) by reflexivity.
  assert (Hp : [1; 2]%R <> []) by discriminate.
  split; [exact Hc|]; split; [exact Hn|]; split; [exact Hp|].
  destruct (append_path_reindex empty_table [1; 2]%R Hc Hn Hp)
    as [d [Hd [Hr [Ho Hcl]]]].
  exists d; split; [exact Hd|]; split; [exact Hr|].
  split; [rewrite (Ho "date") by discriminate; reflexivity | exact Hcl].
Defined.



(** ** [_output_frame_to_dir] *)













(** ** The price path of lines 111-117 *)

Lemma cumprod_acc_length (acc : R) (l : list R) :
  List.length (cumprod_acc acc l) = List.length l.
Proof.
  revert acc; induction l as [|x l IH]; intros acc; simpl; [reflexivity|].
  rewrite IH; reflexivity.
Qed.

(** X9. The price path has one price per normal draw: its length is the
    number of draws. *)
Theorem gbm_prices_length (ip m sg dt : R) (zs : list R) :
  List.length (gbm_prices ip m sg dt zs) = List.length zs.
Proof.
  unfold gbm_prices, asset_path; rewrite length_map.
  destruct zs as [|z zs]; simpl; [reflexivity|].
  rewrite cumprod_acc_length, length_map; reflexivity.
Qed.

Lemma cumprod_acc_step (acc : R) (l : list R) (t : nat) :
  (S t < List.length l)%nat ->
  nth (S t) (cumprod_acc acc l) 0%R = (nth t (cumprod_acc acc l) 0 * nth (S t) l 0)%R.
Proof.
  revert acc t; induction l as [|x l IH]; intros acc t Ht; simpl in Ht; [lia|].
  destruct t as [|t].
  - destruct l as [|y l]; simpl in Ht; [lia|]; reflexivity.
  - change (nth (S (S t)) (cumprod_acc acc (x :: l)) 0%R)
      with (nth (S t) (cumprod_acc (acc * x) l) 0%R).
    rewrite IH by lia; reflexivity.
Qed.

Lemma cumprod_step (l : list R) (t : nat) :
  (S t < List.length l)%nat ->
  nth (S t) (cumprod l) 0%R = (nth t (cumprod l) 0 * nth (S t) l 0)%R.
Proof.
  destruct l as [|x l]; simpl; intros Ht; [lia|].
  destruct t as [|t].
  - destruct l as [|y l]; simpl in Ht; [lia|]; reflexivity.
  - change (nth (S (S t)) (x :: l) 0%R) with (nth (S t) l 0%R).
    change (nth (S (S t)) (x :: cumprod_acc x l) 0%R)
      with (nth (S t) (cumprod_acc x l) 0%R).
    change (nth (S t) (x :: cumprod_acc x l) 0%R) with (nth t (cumprod_acc x l) 0%R).
    apply cumprod_acc_step; lia.
Qed.

(** X10. The price path follows the GBM step: for every non-empty list of
    draws the first price is [init_price] times the first factor, and each
    later price is the previous one times
    [exp((mu - sigma^2/2) * dt + sigma * sqrt(dt) * Z[t])]. *)
Theorem gbm_prices_step (ip m sg dt : R) (zs : list R) :
  (forall z zs', zs = z :: zs' ->
     nth 0 (gbm_prices ip m sg dt zs) 0%R
     = (ip * exp ((m - sg ^ 2 / 2) * dt + sg * (sqrt dt * z)))%R) /\
  (forall t, (S t < List.length zs)%nat ->
     nth (S t) (gbm_prices ip m sg dt zs) 0%R
     = (nth t (gbm_prices ip m sg dt zs) 0 *
        exp ((m - sg ^ 2 / 2) * dt + sg * (sqrt dt * nth (S t) zs 0)))%R).
Proof.
  unfold gbm_prices.
  set (g := fun z => exp ((m - sg ^ 2 / 2) * dt + sg * (sqrt dt * z))%R).
  assert (Hnth : forall k, (k < List.length zs)%nat ->
            nth k (map (fun p => ip * p)%R (cumprod (asset_path m sg dt zs))) 0%R
            = (ip * nth k (cumprod (asset_path m sg dt zs)) 0)%R).
  { intros k Hk.
    assert (Hl : List.length (cumprod (asset_path m sg dt zs)) = List.length zs).
    { unfold asset_path; destruct zs as [|z zs']; simpl; [reflexivity|].
      rewrite cumprod_acc_length, length_map; reflexivity. }
    rewrite (nth_indep _ 0%R (ip * 0)%R) by (rewrite length_map; lia).
    apply (map_nth (fun p => ip * p)%R). }
  assert (Hz : forall k, (k < List.length zs)%nat ->
            nth k (asset_path m sg dt zs) 0%R = g (nth k zs 0%R)).
  { intros k Hk; unfold asset_path; fold g.
    rewrite (nth_indep _ 0%R (g 0%R)) by (rewrite length_map; lia).
    apply map_nth. }
  split.
  - intros z zs' Hzs; rewrite Hnth by (rewrite Hzs; simpl; lia).
    subst zs; reflexivity.
  - intros t Ht; rewrite !Hnth by lia.
    rewrite cumprod_step by (unfold asset_path; rewrite length_map; exact Ht).
    rewrite Hz by exact Ht; unfold g; ring.
Qed.

Lemma sum_firstn_const (c : R) (zs : list R) (t : nat) :
  (t < List.length zs)%nat ->
  fold_right Rplus 0%R (firstn (S t) (map (fun _ => c) zs)) = (INR (S t) * c)%R.
Proof.
  revert t; induction zs as [|z zs IH]; intros t Ht; simpl in Ht; [lia|].
  destruct t as [|t].
  - simpl; ring.
  - change (firstn (S (S t)) (map (fun _ : R => c) (z :: zs)))
      with (c :: firstn (S t) (map (fun _ : R => c) zs)).
    cbn [fold_right]; rewrite IH by lia; rewrite (S_INR (S t)); ring.
Qed.

(** X11. With [sigma = 0] the draws have no effect: the price at step [t]
    is [init_price * exp((t + 1) * mu * dt)], whatever the draws are. *)
Theorem gbm_prices_zero_vol (ip m dt : R) (zs : list R) :
  gbm_prices ip m 0 dt zs
  = map (fun t => ip * exp (INR (S t) * (m * dt)))%R (seq 0 (List.length zs)).
Proof.
  unfold gbm_prices.
  replace (asset_path m 0 dt zs) with (map exp (map (fun _ => (m * dt)%R) zs)).
  - rewrite cumprod_exp, map_map, length_map.
    apply map_ext_in; intros t Ht; apply in_seq in Ht.
    rewrite sum_firstn_const by lia; reflexivity.
  - unfold asset_path; rewrite map_map; apply map_ext; intros z.
    apply f_equal; field.
Qed.
